(** * awsmfunc.types.placebo: the vs-placebo tone-mapping options bundle

    A shallow embedding of [src/awsmfunc/types/placebo.py]: the four
    [IntEnum] classes and the [str] enum, the [NamedTuple]
    [PlaceboTonemapOpts] with its defaults, [_replace],
    [with_static_peak_detect], [vsplacebo_dict] and the three colour-space
    predicates.

    Python [float] is IEEE binary64, embedded as Rocq's primitive [float];
    Python [int] is [Z]; [str] is [string]; a [dict] is an association list
    in insertion order. *)

From Stdlib Require Import ZArith PrimFloat.
From stdpp Require Import base option list strings.

Set Warnings "-inexact-float".

Local Open Scope string_scope.
Local Open Scope Z_scope.

(** ** Enumerations *)

(** [class PlaceboColorSpace(IntEnum)] *)
Module PlaceboColorSpace.
Inductive t := SDR | HDR10 | HLG | DOVI.

Definition value (c : t) : Z :=
    match c with
    | SDR => 0
    | HDR10 => 1
    | HLG => 2
    | DOVI => 3
    end.

(** [==] on [IntEnum] members is [int.__eq__] on their values. *)
Definition eqb (a b : t) : bool := value a =? value b.
End PlaceboColorSpace.

(** [class PlaceboTonemapFunction(IntEnum)] *)
Module PlaceboTonemapFunction.
Inductive t :=
  | Auto | Clip | ST2094_40 | ST2094_10 | BT2390 | BT2446a
  | Spline | Reinhard | Mobius | Hable | Gamma | Linear.

Definition value (f : t) : Z :=
    match f with
    | Auto => 0
    | Clip => 1
    | ST2094_40 => 2
    | ST2094_10 => 3
    | BT2390 => 4
    | BT2446a => 5
    | Spline => 6
    | Reinhard => 7
    | Mobius => 8
    | Hable => 9
    | Gamma => 10
    | Linear => 11
    end.
End PlaceboTonemapFunction.

(** [class PlaceboTonemapFunctionName(str, Enum)] *)
Module PlaceboTonemapFunctionName.
Inductive t :=
  | Auto | Clip | ST2094_40 | ST2094_10 | BT2390 | BT2446a
  | Spline | Reinhard | Mobius | Hable | Gamma | Linear.

Definition value (f : t) : string :=
    match f with
    | Auto => "auto"
    | Clip => "clip"
    | ST2094_40 => "st2094-40"
    | ST2094_10 => "st2094-10"
    | BT2390 => "bt2390"
    | BT2446a => "bt2446a"
    | Spline => "spline"
    | Reinhard => "reinhard"
    | Mobius => "mobius"
    | Hable => "hable"
    | Gamma => "gamma"
    | Linear => "linear"
    end.
End PlaceboTonemapFunctionName.

(** [class PlaceboGamutMapping(IntEnum)] *)
Module PlaceboGamutMapping.
Inductive t :=
  | Clip | Perceptual | Softclip | Relative | Saturation
  | Absolute | Desaturate | Darken | Highlight | Linear.

Definition value (g : t) : Z :=
    match g with
    | Clip => 0
    | Perceptual => 1
    | Softclip => 2
    | Relative => 3
    | Saturation => 4
    | Absolute => 5
    | Desaturate => 6
    | Darken => 7
    | Highlight => 8
    | Linear => 9
    end.
End PlaceboGamutMapping.

(** [class PlaceboHdrMetadataType(IntEnum)] *)
Module PlaceboHdrMetadataType.
Inductive t := Any | PlNone | HDR10 | HDR10Plus | CIE_Y.

Definition value (m : t) : Z :=
    match m with
    | Any => 0
    | PlNone => 1
    | HDR10 => 2
    | HDR10Plus => 3
    | CIE_Y => 4
    end.
End PlaceboHdrMetadataType.

(** ** Values *)

(** What a field annotated [float] holds: the annotation also admits an
    [int] (and [with_static_peak_detect] stores the [int] literal [0] in
    three such fields). *)
Inductive number :=
| NInt (z : Z)
| NFloat (f : float).

(** The objects that occur as values of the [dict] built by
    [vsplacebo_dict]. *)
Inductive pyobj :=
| PyNone
| PyBool (b : bool)
| PyInt (z : Z)
| PyFloat (f : float)
| PyColorSpace (c : PlaceboColorSpace.t)
| PyGamutMapping (g : PlaceboGamutMapping.t)
| PyTonemapFunction (f : PlaceboTonemapFunction.t)
| PyTonemapFunctionName (f : PlaceboTonemapFunctionName.t)
| PyHdrMetadataType (m : PlaceboHdrMetadataType.t).

Definition PyNumber (n : number) : pyobj :=
  match n with
  | NInt z => PyInt z
  | NFloat f => PyFloat f
  end.

(** An [Optional[A]] attribute as an object: [None] or the value itself. *)
Definition PyOptional {A} (inj : A → pyobj) (o : option A) : pyobj :=
  match o with
  | Some a => inj a
  | None => PyNone
  end.

(** [v is not None] *)
Definition is_not_None (v : pyobj) : Prop := v ≠ PyNone.

#[global] Instance is_not_None_dec (v : pyobj) : Decision (is_not_None v).
Proof.
  unfold is_not_None.
  refine (match v with PyNone => right _ | _ => left _ end); congruence.
Defined.

(** A [dict] with [str] keys, in insertion order. *)
Abbreviation dict := (list (string * pyobj)).

(** [d.get(k)] *)
Fixpoint dict_get (k : string) (d : dict) : option pyobj :=
  match d with
  | [] => None
  | (k', v) :: d' => if String.eqb k k' then Some v else dict_get k d'
  end.

(** [list(d.keys())] *)
Definition dict_keys (d : dict) : list string := d.*1.

(** ** The options bundle *)

(** [class PlaceboTonemapOpts(NamedTuple)] *)
Record PlaceboTonemapOpts := {
  source_colorspace : PlaceboColorSpace.t;
  target_colorspace : PlaceboColorSpace.t;
  target_primaries : option Z;
  dst_max : number;
  dst_min : number;
  peak_detect : bool;
  gamut_mapping : option PlaceboGamutMapping.t;
  tone_map_function : option PlaceboTonemapFunction.t;
  tone_map_function_s : option PlaceboTonemapFunctionName.t;
  tone_map_param : option number;
  contrast_recovery : option number;
  hdr_metadata_type : option PlaceboHdrMetadataType.t;
  use_dovi : option bool;
  smoothing_period : option number;
  scene_threshold_low : option number;
  scene_threshold_high : option number;
  percentile : option number;
  show_clipping : option bool;
  visualize_lut : option bool;
  use_planestats : bool
}.

(** Keyword arguments of a call, one slot per field: [None] when the
    keyword is not passed, [Some v] when it is passed with value [v] (for
    an [Optional] field [v] may itself be Python's [None]). *)
Record kwargs := {
  kw_source_colorspace : option PlaceboColorSpace.t;
  kw_target_colorspace : option PlaceboColorSpace.t;
  kw_target_primaries : option (option Z);
  kw_dst_max : option number;
  kw_dst_min : option number;
  kw_peak_detect : option bool;
  kw_gamut_mapping : option (option PlaceboGamutMapping.t);
  kw_tone_map_function : option (option PlaceboTonemapFunction.t);
  kw_tone_map_function_s : option (option PlaceboTonemapFunctionName.t);
  kw_tone_map_param : option (option number);
  kw_contrast_recovery : option (option number);
  kw_hdr_metadata_type : option (option PlaceboHdrMetadataType.t);
  kw_use_dovi : option (option bool);
  kw_smoothing_period : option (option number);
  kw_scene_threshold_low : option (option number);
  kw_scene_threshold_high : option (option number);
  kw_percentile : option (option number);
  kw_show_clipping : option (option bool);
  kw_visualize_lut : option (option bool);
  kw_use_planestats : option bool
}.

(** A call that passes no keyword. *)
Definition no_kwargs : kwargs := {|
  kw_source_colorspace := None;
  kw_target_colorspace := None;
  kw_target_primaries := None;
  kw_dst_max := None;
  kw_dst_min := None;
  kw_peak_detect := None;
  kw_gamut_mapping := None;
  kw_tone_map_function := None;
  kw_tone_map_function_s := None;
  kw_tone_map_param := None;
  kw_contrast_recovery := None;
  kw_hdr_metadata_type := None;
  kw_use_dovi := None;
  kw_smoothing_period := None;
  kw_scene_threshold_low := None;
  kw_scene_threshold_high := None;
  kw_percentile := None;
  kw_show_clipping := None;
  kw_visualize_lut := None;
  kw_use_planestats := None
|}.

(** The class body is executed once, top to bottom: [dst_max] is bound to
    [203.0] and the default of [dst_min] is the value of the expression
    [dst_max / 1000] at that moment. *)
Definition default_dst_max : float := 203.0%float.
Definition default_dst_min : float := (default_dst_max / 1000)%float.

(** The constructor call [PlaceboTonemapOpts] with keywords [kw]: a field takes the keyword's value when it
    is passed and the default of the class body otherwise. *)
Definition new (kw : kwargs) : PlaceboTonemapOpts := {|
  source_colorspace := default PlaceboColorSpace.HDR10 (kw_source_colorspace kw);
  target_colorspace := default PlaceboColorSpace.SDR (kw_target_colorspace kw);
  target_primaries := default None (kw_target_primaries kw);
  dst_max := default (NFloat default_dst_max) (kw_dst_max kw);
  dst_min := default (NFloat default_dst_min) (kw_dst_min kw);
  peak_detect := default true (kw_peak_detect kw);
  gamut_mapping := default None (kw_gamut_mapping kw);
  tone_map_function := default None (kw_tone_map_function kw);
  tone_map_function_s := default None (kw_tone_map_function_s kw);
  tone_map_param := default None (kw_tone_map_param kw);
  contrast_recovery := default None (kw_contrast_recovery kw);
  hdr_metadata_type := default None (kw_hdr_metadata_type kw);
  use_dovi := default None (kw_use_dovi kw);
  smoothing_period := default None (kw_smoothing_period kw);
  scene_threshold_low := default None (kw_scene_threshold_low kw);
  scene_threshold_high := default None (kw_scene_threshold_high kw);
  percentile := default None (kw_percentile kw);
  show_clipping := default None (kw_show_clipping kw);
  visualize_lut := default None (kw_visualize_lut kw);
  use_planestats := default true (kw_use_planestats kw)
|}.

(** [self._replace] with keywords [kw]: a fresh tuple, each field taken from the
    keyword when it is passed and from [self] otherwise. *)
Definition _replace (self : PlaceboTonemapOpts) (kw : kwargs) : PlaceboTonemapOpts := {|
  source_colorspace := default (source_colorspace self) (kw_source_colorspace kw);
  target_colorspace := default (target_colorspace self) (kw_target_colorspace kw);
  target_primaries := default (target_primaries self) (kw_target_primaries kw);
  dst_max := default (dst_max self) (kw_dst_max kw);
  dst_min := default (dst_min self) (kw_dst_min kw);
  peak_detect := default (peak_detect self) (kw_peak_detect kw);
  gamut_mapping := default (gamut_mapping self) (kw_gamut_mapping kw);
  tone_map_function := default (tone_map_function self) (kw_tone_map_function kw);
  tone_map_function_s := default (tone_map_function_s self) (kw_tone_map_function_s kw);
  tone_map_param := default (tone_map_param self) (kw_tone_map_param kw);
  contrast_recovery := default (contrast_recovery self) (kw_contrast_recovery kw);
  hdr_metadata_type := default (hdr_metadata_type self) (kw_hdr_metadata_type kw);
  use_dovi := default (use_dovi self) (kw_use_dovi kw);
  smoothing_period := default (smoothing_period self) (kw_smoothing_period kw);
  scene_threshold_low := default (scene_threshold_low self) (kw_scene_threshold_low kw);
  scene_threshold_high := default (scene_threshold_high self) (kw_scene_threshold_high kw);
  percentile := default (percentile self) (kw_percentile kw);
  show_clipping := default (show_clipping self) (kw_show_clipping kw);
  visualize_lut := default (visualize_lut self) (kw_visualize_lut kw);
  use_planestats := default (use_planestats self) (kw_use_planestats kw)
|}.

(** The keywords of the one [_replace] call in the class:
    [smoothing_period=0, scene_threshold_low=0, scene_threshold_high=0]. *)
Definition static_peak_detect_kwargs : kwargs := {|
  kw_source_colorspace := None;
  kw_target_colorspace := None;
  kw_target_primaries := None;
  kw_dst_max := None;
  kw_dst_min := None;
  kw_peak_detect := None;
  kw_gamut_mapping := None;
  kw_tone_map_function := None;
  kw_tone_map_function_s := None;
  kw_tone_map_param := None;
  kw_contrast_recovery := None;
  kw_hdr_metadata_type := None;
  kw_use_dovi := None;
  kw_smoothing_period := Some (Some (NInt 0));
  kw_scene_threshold_low := Some (Some (NInt 0));
  kw_scene_threshold_high := Some (Some (NInt 0));
  kw_percentile := None;
  kw_show_clipping := None;
  kw_visualize_lut := None;
  kw_use_planestats := None
|}.

(** [def with_static_peak_detect(self)] *)
Definition with_static_peak_detect (self : PlaceboTonemapOpts) : PlaceboTonemapOpts :=
  _replace self static_peak_detect_kwargs.

(** The [dict] literal [all_args] of [vsplacebo_dict]. *)
Definition all_args (self : PlaceboTonemapOpts) : dict := [
  ("src_csp", PyColorSpace (source_colorspace self));
  ("dst_csp", PyColorSpace (target_colorspace self));
  ("dst_prim", PyOptional PyInt (target_primaries self));
  ("dst_max", PyNumber (dst_max self));
  ("dst_min", PyNumber (dst_min self));
  ("dynamic_peak_detection", PyBool (peak_detect self));
  ("gamut_mapping", PyOptional PyGamutMapping (gamut_mapping self));
  ("tone_mapping_function", PyOptional PyTonemapFunction (tone_map_function self));
  ("tone_mapping_function_s", PyOptional PyTonemapFunctionName (tone_map_function_s self));
  ("tone_mapping_param", PyOptional PyNumber (tone_map_param self));
  ("use_dovi", PyOptional PyBool (use_dovi self));
  ("smoothing_period", PyOptional PyNumber (smoothing_period self));
  ("scene_threshold_low", PyOptional PyNumber (scene_threshold_low self));
  ("scene_threshold_high", PyOptional PyNumber (scene_threshold_high self));
  ("show_clipping", PyOptional PyBool (show_clipping self));
  ("percentile", PyOptional PyNumber (percentile self));
  ("metadata", PyOptional PyHdrMetadataType (hdr_metadata_type self));
  ("visualize_lut", PyOptional PyBool (visualize_lut self));
  ("contrast_recovery", PyOptional PyNumber (contrast_recovery self))
].

(** [def vsplacebo_dict(self)]:
    [{k: v for k, v in all_args.items() if v is not None}] *)
Definition vsplacebo_dict (self : PlaceboTonemapOpts) : dict :=
  filter (λ kv, is_not_None kv.2) (all_args self).

(** [def is_dovi_src(self)] *)
Definition is_dovi_src (self : PlaceboTonemapOpts) : bool :=
  PlaceboColorSpace.eqb (source_colorspace self) PlaceboColorSpace.DOVI.

(** [def is_hdr10_src(self)] *)
Definition is_hdr10_src (self : PlaceboTonemapOpts) : bool :=
  PlaceboColorSpace.eqb (source_colorspace self) PlaceboColorSpace.HDR10.

(** [def is_sdr_target(self)] *)
Definition is_sdr_target (self : PlaceboTonemapOpts) : bool :=
  PlaceboColorSpace.eqb (target_colorspace self) PlaceboColorSpace.SDR.

(** ** Object identity

    A [NamedTuple] instance is a tuple object: nothing writes to it after
    it is built, and [_replace] always builds another one. The store keeps
    the tuples allocated so far; a reference is a position in it. *)
Module Store.
Definition ref := nat.
Definition store := list PlaceboTonemapOpts.

Definition alloc (o : PlaceboTonemapOpts) (s : store) : ref * store :=
    (List.length s, (s ++ [o])%list).

(** The call [r.with_static_peak_detect()] on the object that [r]
      refers to; [None] when [r] is dangling. *)
Definition call_with_static_peak_detect (r : ref) (s : store) : option (ref * store) :=
    match s !! r with
    | Some self => Some (alloc (with_static_peak_detect self) s)
    | None => None
    end.
End Store.

(** ** Auxiliary definitions for the statements *)

(** The keys of [all_args], in the order of the literal. *)
Definition arg_names : list string := [
  "src_csp"; "dst_csp"; "dst_prim"; "dst_max"; "dst_min";
  "dynamic_peak_detection"; "gamut_mapping"; "tone_mapping_function";
  "tone_mapping_function_s"; "tone_mapping_param"; "use_dovi";
  "smoothing_period"; "scene_threshold_low"; "scene_threshold_high";
  "show_clipping"; "percentile"; "metadata"; "visualize_lut";
  "contrast_recovery"
].

(** What the comprehension's test does to one value. *)
Definition unless_None (v : pyobj) : option pyobj :=
  if decide (is_not_None v) then Some v else None.

(** Keywords of a call that passes [dst_max=v] only. *)
Definition dst_max_kwargs (v : number) : kwargs := {|
  kw_source_colorspace := None;
  kw_target_colorspace := None;
  kw_target_primaries := None;
  kw_dst_max := Some v;
  kw_dst_min := None;
  kw_peak_detect := None;
  kw_gamut_mapping := None;
  kw_tone_map_function := None;
  kw_tone_map_function_s := None;
  kw_tone_map_param := None;
  kw_contrast_recovery := None;
  kw_hdr_metadata_type := None;
  kw_use_dovi := None;
  kw_smoothing_period := None;
  kw_scene_threshold_low := None;
  kw_scene_threshold_high := None;
  kw_percentile := None;
  kw_show_clipping := None;
  kw_visualize_lut := None;
  kw_use_planestats := None
|}.

(** Keywords of a call that passes [use_planestats=flag] only. *)
Definition use_planestats_kwargs (flag : bool) : kwargs := {|
  kw_source_colorspace := None;
  kw_target_colorspace := None;
  kw_target_primaries := None;
  kw_dst_max := None;
  kw_dst_min := None;
  kw_peak_detect := None;
  kw_gamut_mapping := None;
  kw_tone_map_function := None;
  kw_tone_map_function_s := None;
  kw_tone_map_param := None;
  kw_contrast_recovery := None;
  kw_hdr_metadata_type := None;
  kw_use_dovi := None;
  kw_smoothing_period := None;
  kw_scene_threshold_low := None;
  kw_scene_threshold_high := None;
  kw_percentile := None;
  kw_show_clipping := None;
  kw_visualize_lut := None;
  kw_use_planestats := Some flag
|}.

(** Keywords of a call that passes every [Optional] field, with the two
    tone-map function forms naming different curves. *)
Definition sample_kwargs : kwargs := {|
  kw_source_colorspace := Some PlaceboColorSpace.DOVI;
  kw_target_colorspace := None;
  kw_target_primaries := Some (Some 1);
  kw_dst_max := Some (NFloat 100);
  kw_dst_min := None;
  kw_peak_detect := Some false;
  kw_gamut_mapping := Some (Some PlaceboGamutMapping.Perceptual);
  kw_tone_map_function := Some (Some PlaceboTonemapFunction.Clip);
  kw_tone_map_function_s := Some (Some PlaceboTonemapFunctionName.Hable);
  kw_tone_map_param := Some (Some (NFloat 0.5));
  kw_contrast_recovery := Some (Some (NFloat 0.3));
  kw_hdr_metadata_type := Some (Some PlaceboHdrMetadataType.HDR10Plus);
  kw_use_dovi := Some (Some true);
  kw_smoothing_period := Some (Some (NFloat 20));
  kw_scene_threshold_low := Some (Some (NFloat 1));
  kw_scene_threshold_high := Some (Some (NInt 3));
  kw_percentile := Some (Some (NFloat 99.995));
  kw_show_clipping := Some (Some false);
  kw_visualize_lut := Some (Some true);
  kw_use_planestats := Some false
|}.




(** The names of the fields that [all_args] files under another key, and
    of the one field it leaves out. *)
Definition field_names_not_keys : list string := [
  "source_colorspace"; "target_colorspace"; "target_primaries"; "peak_detect";
  "tone_map_function"; "tone_map_function_s"; "tone_map_param";
  "hdr_metadata_type"; "use_planestats"
].

(** The three keys that [with_static_peak_detect] forces. *)
Definition static_peak_detect_keys : list string := [
  "smoothing_period"; "scene_threshold_low"; "scene_threshold_high"
].

(** ** Lookup in a filtered literal *)

Lemma arg_names_NoDup : NoDup arg_names.
Proof. apply (bool_decide_unpack _). vm_compute. exact I. Qed.

Lemma all_args_keys self : dict_keys (all_args self) = arg_names.
Proof. reflexivity. Qed.

Lemma dict_get_not_key k (d : dict) : k ∉ dict_keys d → dict_get k d = None.
Proof.
  induction d as [|[k' v] d IH]; [done|].
  unfold dict_keys. rewrite fmap_cons, not_elem_of_cons. simpl. intros [Hne Hnotin].
  apply String.eqb_neq in Hne. rewrite Hne. by apply IH.
Qed.

Lemma dict_get_filter_not_None k (d : dict) :
  NoDup (dict_keys d) →
  dict_get k (filter (λ kv, is_not_None kv.2) d) = dict_get k d ≫= unless_None.
Proof.
  induction d as [|[k' v] d IH]; [done|].
  unfold dict_keys. rewrite fmap_cons, NoDup_cons. intros [Hfresh Hnodup].
  specialize (IH Hnodup). rewrite filter_cons. cbn [snd dict_get].
  unfold unless_None at 1 in IH. unfold unless_None.
  destruct (String.eqb_spec k k') as [->|Hne], (decide (is_not_None v)) as [Hv|Hv];
    cbn [dict_get mbind option_bind].
  - rewrite String.eqb_refl. by rewrite decide_True.
  - rewrite decide_False by done. rewrite IH. by rewrite dict_get_not_key.
  - apply String.eqb_neq in Hne. by rewrite Hne.
  - done.
Qed.

Lemma vsplacebo_dict_get self k :
  dict_get k (vsplacebo_dict self) = dict_get k (all_args self) ≫= unless_None.
Proof.
  apply dict_get_filter_not_None. rewrite all_args_keys. apply arg_names_NoDup.
Qed.

Lemma vsplacebo_dict_keys_sublist self :
  dict_keys (vsplacebo_dict self) `sublist_of` arg_names.
Proof.
  rewrite <- (all_args_keys self). unfold dict_keys, vsplacebo_dict.
  apply fmap_sublist, sublist_filter.
Qed.

Lemma unless_None_PyOptional {A} (inj : A → pyobj) (o : option A) :
  (∀ a, inj a ≠ PyNone) → unless_None (PyOptional inj o) = inj <$> o.
Proof.
  intros Hinj. destruct o as [a|]; simpl; [|done].
  unfold unless_None. destruct (decide (is_not_None (inj a))) as [|Hn]; [done|].
  destruct Hn. apply Hinj.
Qed.

Lemma PyNumber_not_None n : PyNumber n ≠ PyNone.
Proof. by destruct n. Qed.

Lemma unless_None_PyNumber n : unless_None (PyNumber n) = Some (PyNumber n).
Proof. by destruct n. Qed.

Lemma use_planestats_not_a_key self :
  "use_planestats" ∉ dict_keys (vsplacebo_dict self).
Proof.
  intros Hin.
  pose proof (elem_of_sublist _ _ _ Hin (vsplacebo_dict_keys_sublist self)) as Hbad.
  revert Hbad. apply (bool_decide_unpack _). vm_compute. exact I.
Qed.

(** One entry of [vsplacebo_dict], read off the literal. *)
Local Ltac entry :=
  rewrite vsplacebo_dict_get;
  first
    [ reflexivity
    | exact (unless_None_PyNumber _)
    | refine (unless_None_PyOptional _ _ _); first [ exact PyNumber_not_None | done ] ].

Lemma vsplacebo_dict_fixed_entries self :
  dict_get "src_csp" (vsplacebo_dict self) = Some (PyColorSpace (source_colorspace self)) ∧
  dict_get "dst_csp" (vsplacebo_dict self) = Some (PyColorSpace (target_colorspace self)) ∧
  dict_get "dst_max" (vsplacebo_dict self) = Some (PyNumber (dst_max self)) ∧
  dict_get "dst_min" (vsplacebo_dict self) = Some (PyNumber (dst_min self)) ∧
  dict_get "dynamic_peak_detection" (vsplacebo_dict self) = Some (PyBool (peak_detect self)).
Proof. repeat split; entry. Qed.

Lemma vsplacebo_dict_optional_entries self :
  dict_get "dst_prim" (vsplacebo_dict self) = PyInt <$> target_primaries self ∧
  dict_get "gamut_mapping" (vsplacebo_dict self) = PyGamutMapping <$> gamut_mapping self ∧
  dict_get "tone_mapping_function" (vsplacebo_dict self)
    = PyTonemapFunction <$> tone_map_function self ∧
  dict_get "tone_mapping_function_s" (vsplacebo_dict self)
    = PyTonemapFunctionName <$> tone_map_function_s self ∧
  dict_get "tone_mapping_param" (vsplacebo_dict self) = PyNumber <$> tone_map_param self ∧
  dict_get "use_dovi" (vsplacebo_dict self) = PyBool <$> use_dovi self ∧
  dict_get "smoothing_period" (vsplacebo_dict self) = PyNumber <$> smoothing_period self ∧
  dict_get "scene_threshold_low" (vsplacebo_dict self)
    = PyNumber <$> scene_threshold_low self ∧
  dict_get "scene_threshold_high" (vsplacebo_dict self)
    = PyNumber <$> scene_threshold_high self ∧
  dict_get "show_clipping" (vsplacebo_dict self) = PyBool <$> show_clipping self ∧
  dict_get "percentile" (vsplacebo_dict self) = PyNumber <$> percentile self ∧
  dict_get "metadata" (vsplacebo_dict self) = PyHdrMetadataType <$> hdr_metadata_type self ∧
  dict_get "visualize_lut" (vsplacebo_dict self) = PyBool <$> visualize_lut self ∧
  dict_get "contrast_recovery" (vsplacebo_dict self) = PyNumber <$> contrast_recovery self.
Proof. repeat split; entry. Qed.

(** The stored default and [1.0] are different numbers: they are not even
    [==]. *)
Lemma default_dst_min_not_one : NFloat 0.203 ≠ NFloat 1.
Proof.
  intros H.
  apply (f_equal (λ n, match n with NFloat f => PrimFloat.eqb f 1 | NInt _ => true end)) in H.
  vm_compute in H. discriminate H.
Qed.

(** Whatever else is passed, a call without [dst_min] gets the value the
    class body computed once. *)
Lemma new_dst_min_not_passed kw :
  kw_dst_min kw = None → dst_min (new kw) = NFloat 0.203.
Proof. intros H. simpl. rewrite H. reflexivity. Qed.

(** ** Construction defaults *)

(** C1. The claim asks for [dst_min = dst_max / 1000] whenever [dst_min] is
    not passed, so [1.0] for [dst_max=1000.0]. The code does not do that:
    the call [PlaceboTonemapOpts(dst_max=1000.0)] stores [dst_max = 1000.0]
    and keeps [dst_min = 0.203], the quotient [203.0 / 1000] computed once
    in the class body, which differs from [1000.0 / 1000 = 1.0]. *)
Theorem dst_min_default_ignores_dst_max_override :
  let b := new (dst_max_kwargs (NFloat 1000)) in
  dst_max b = NFloat 1000 ∧
  dst_min b = NFloat 0.203 ∧
  (1000 / 1000)%float = 1%float ∧
  dst_min b ≠ NFloat (1000 / 1000).
Proof.
  repeat split. exact default_dst_min_not_one.
Qed.

(** C2. [vsplacebo_dict] of a bundle built with no argument is exactly
    [{src_csp: HDR10, dst_csp: SDR, dst_max: 203.0, dst_min: 0.203,
    dynamic_peak_detection: True}], where [HDR10] has value 1 and [SDR]
    value 0; there is no other key. *)
Theorem vsplacebo_dict_default :
  vsplacebo_dict (new no_kwargs) =
    [ ("src_csp", PyColorSpace PlaceboColorSpace.HDR10);
      ("dst_csp", PyColorSpace PlaceboColorSpace.SDR);
      ("dst_max", PyFloat 203.0);
      ("dst_min", PyFloat 0.203);
      ("dynamic_peak_detection", PyBool true) ] ∧
  PlaceboColorSpace.value PlaceboColorSpace.HDR10 = 1 ∧
  PlaceboColorSpace.value PlaceboColorSpace.SDR = 0.
Proof. repeat split. Qed.

(** ** The static peak detection variant *)

Lemma alloc_fresh o (s : Store.store) r self :
  s !! r = Some self →
  (Store.alloc o s).1 ≠ r ∧
  (Store.alloc o s).2 !! (Store.alloc o s).1 = Some o ∧
  (Store.alloc o s).2 !! r = Some self.
Proof.
  intros Hr. simpl. pose proof (lookup_lt_Some _ _ _ Hr) as Hlt.
  split; [lia|]. split.
  - by apply list_lookup_middle.
  - by apply lookup_app_l_Some.
Qed.

(** C3. A call of [with_static_peak_detect] on any bundle returns a new
    object, distinct from the receiver, whose [smoothing_period],
    [scene_threshold_low] and [scene_threshold_high] are 0 and whose
    seventeen other fields are those of the receiver; the receiver, and
    every other object, is as it was before the call. *)
Theorem with_static_peak_detect_fields
    (s : Store.store) (r : Store.ref) (self : PlaceboTonemapOpts) :
  s !! r = Some self →
  ∃ r' s' variant,
    Store.call_with_static_peak_detect r s = Some (r', s') ∧
    r' ≠ r ∧
    s' !! r' = Some variant ∧
    s' !! r = Some self ∧
    (∀ q o, s !! q = Some o → s' !! q = Some o) ∧
    smoothing_period variant = Some (NInt 0) ∧
    scene_threshold_low variant = Some (NInt 0) ∧
    scene_threshold_high variant = Some (NInt 0) ∧
    source_colorspace variant = source_colorspace self ∧
    target_colorspace variant = target_colorspace self ∧
    target_primaries variant = target_primaries self ∧
    dst_max variant = dst_max self ∧
    dst_min variant = dst_min self ∧
    peak_detect variant = peak_detect self ∧
    gamut_mapping variant = gamut_mapping self ∧
    tone_map_function variant = tone_map_function self ∧
    tone_map_function_s variant = tone_map_function_s self ∧
    tone_map_param variant = tone_map_param self ∧
    contrast_recovery variant = contrast_recovery self ∧
    hdr_metadata_type variant = hdr_metadata_type self ∧
    use_dovi variant = use_dovi self ∧
    percentile variant = percentile self ∧
    show_clipping variant = show_clipping self ∧
    visualize_lut variant = visualize_lut self ∧
    use_planestats variant = use_planestats self.
Proof.
  intros Hr.
  destruct (alloc_fresh (with_static_peak_detect self) s r self Hr) as (Hne & Hnew & Hold).
  exists (Store.alloc (with_static_peak_detect self) s).1,
         (Store.alloc (with_static_peak_detect self) s).2,
         (with_static_peak_detect self).
  unfold Store.call_with_static_peak_detect. rewrite Hr.
  split; [reflexivity|]. split; [exact Hne|]. split; [exact Hnew|].
  split; [exact Hold|]. split.
  - intros q o Hq. by apply lookup_app_l_Some.
  - repeat split.
Qed.

(** The call on a store that holds one bundle, built from [sample_kwargs]. *)
Lemma with_static_peak_detect_fields_witness :
  ∃ r' s' variant,
    Store.call_with_static_peak_detect 0%nat [new sample_kwargs] = Some (r', s') ∧
    r' ≠ 0%nat ∧
    s' !! r' = Some variant ∧
    s' !! 0%nat = Some (new sample_kwargs) ∧
    (∀ q o, [new sample_kwargs] !! q = Some o → s' !! q = Some o) ∧
    smoothing_period variant = Some (NInt 0) ∧
    scene_threshold_low variant = Some (NInt 0) ∧
    scene_threshold_high variant = Some (NInt 0) ∧
    source_colorspace variant = source_colorspace (new sample_kwargs) ∧
    target_colorspace variant = target_colorspace (new sample_kwargs) ∧
    target_primaries variant = target_primaries (new sample_kwargs) ∧
    dst_max variant = dst_max (new sample_kwargs) ∧
    dst_min variant = dst_min (new sample_kwargs) ∧
    peak_detect variant = peak_detect (new sample_kwargs) ∧
    gamut_mapping variant = gamut_mapping (new sample_kwargs) ∧
    tone_map_function variant = tone_map_function (new sample_kwargs) ∧
    tone_map_function_s variant = tone_map_function_s (new sample_kwargs) ∧
    tone_map_param variant = tone_map_param (new sample_kwargs) ∧
    contrast_recovery variant = contrast_recovery (new sample_kwargs) ∧
    hdr_metadata_type variant = hdr_metadata_type (new sample_kwargs) ∧
    use_dovi variant = use_dovi (new sample_kwargs) ∧
    percentile variant = percentile (new sample_kwargs) ∧
    show_clipping variant = show_clipping (new sample_kwargs) ∧
    visualize_lut variant = visualize_lut (new sample_kwargs) ∧
    use_planestats variant = use_planestats (new sample_kwargs).
Proof.
  apply (with_static_peak_detect_fields [new sample_kwargs] 0%nat (new sample_kwargs)).
  reflexivity.
Defined.

(** Replacing twice with the same keywords is replacing once. *)
Lemma _replace_twice self kw : _replace (_replace self kw) kw = _replace self kw.
Proof.
  destruct kw. unfold _replace. simpl.
  f_equal; match goal with |- default (default _ ?o) ?o = _ => by destruct o end.
Qed.

(** C9. [with_static_peak_detect] is idempotent: applying it to its own
    result gives a bundle equal to that result. *)
Theorem with_static_peak_detect_idempotent self :
  with_static_peak_detect (with_static_peak_detect self) = with_static_peak_detect self.
Proof.
  unfold with_static_peak_detect. apply _replace_twice.
Qed.

(** C10. In [vsplacebo_dict] of the static peak detection variant of any
    bundle, the keys [smoothing_period], [scene_threshold_low] and
    [scene_threshold_high] are present, each with the value 0, also when
    the three fields were [None] in the bundle. *)
Theorem vsplacebo_dict_static_peak_detect self :
  let d := vsplacebo_dict (with_static_peak_detect self) in
  dict_get "smoothing_period" d = Some (PyInt 0) ∧
  dict_get "scene_threshold_low" d = Some (PyInt 0) ∧
  dict_get "scene_threshold_high" d = Some (PyInt 0).
Proof. repeat split; entry. Qed.

(** ** The filter parameters *)

(** C4, as amended. For every bundle and every field except
    [use_planestats], [vsplacebo_dict] has an entry for the field exactly
    when the field is not [None], under the field's fixed external key and
    with the field's own value: the five fields that cannot be [None] are
    always present, and each [Optional] field is looked up as its value
    ([None] when the field is [None]). [use_planestats] has no entry. The
    keys are a duplicate-free subsequence of the nineteen names of the
    literal, in its order, and no entry holds [None]. *)
Theorem vsplacebo_dict_entries self :
  let d := vsplacebo_dict self in
  dict_get "src_csp" d = Some (PyColorSpace (source_colorspace self)) ∧
  dict_get "dst_csp" d = Some (PyColorSpace (target_colorspace self)) ∧
  dict_get "dst_prim" d = PyInt <$> target_primaries self ∧
  dict_get "dst_max" d = Some (PyNumber (dst_max self)) ∧
  dict_get "dst_min" d = Some (PyNumber (dst_min self)) ∧
  dict_get "dynamic_peak_detection" d = Some (PyBool (peak_detect self)) ∧
  dict_get "gamut_mapping" d = PyGamutMapping <$> gamut_mapping self ∧
  dict_get "tone_mapping_function" d = PyTonemapFunction <$> tone_map_function self ∧
  dict_get "tone_mapping_function_s" d = PyTonemapFunctionName <$> tone_map_function_s self ∧
  dict_get "tone_mapping_param" d = PyNumber <$> tone_map_param self ∧
  dict_get "use_dovi" d = PyBool <$> use_dovi self ∧
  dict_get "smoothing_period" d = PyNumber <$> smoothing_period self ∧
  dict_get "scene_threshold_low" d = PyNumber <$> scene_threshold_low self ∧
  dict_get "scene_threshold_high" d = PyNumber <$> scene_threshold_high self ∧
  dict_get "show_clipping" d = PyBool <$> show_clipping self ∧
  dict_get "percentile" d = PyNumber <$> percentile self ∧
  dict_get "metadata" d = PyHdrMetadataType <$> hdr_metadata_type self ∧
  dict_get "visualize_lut" d = PyBool <$> visualize_lut self ∧
  dict_get "contrast_recovery" d = PyNumber <$> contrast_recovery self ∧
  dict_get "use_planestats" d = None ∧
  dict_keys d `sublist_of` arg_names ∧
  NoDup (dict_keys d) ∧
  (∀ k v, (k, v) ∈ d → v ≠ PyNone).
Proof.
  pose proof (vsplacebo_dict_fixed_entries self) as (? & ? & ? & ? & ?).
  pose proof (vsplacebo_dict_optional_entries self)
    as (? & ? & ? & ? & ? & ? & ? & ? & ? & ? & ? & ? & ? & ?).
  pose proof (vsplacebo_dict_keys_sublist self) as Hsub.
  repeat split; try assumption.
  - apply dict_get_not_key, use_planestats_not_a_key.
  - exact (sublist_NoDup _ _ arg_names_NoDup Hsub).
  - intros k v [Hv _]%list_elem_of_filter. exact Hv.
Qed.

(** C4, as stated, fails at the bundle built with no argument: its
    [use_planestats] is [True], which is not [None], and yet
    [vsplacebo_dict] has no entry under that field's name, so "an entry if
    and only if the value is not [None]" is false for this field. *)
Lemma use_planestats_set_but_not_emitted :
  let b := new no_kwargs in
  ¬ (is_Some (dict_get "use_planestats" (vsplacebo_dict b))
     ↔ PyBool (use_planestats b) ≠ PyNone).
Proof.
  intros b [_ Hentry].
  assert (PyBool (use_planestats b) ≠ PyNone) as Hset by discriminate.
  destruct (Hentry Hset) as [v Hv]. vm_compute in Hv. discriminate Hv.
Qed.

(** C7. For every bundle, whatever [use_planestats] is, [vsplacebo_dict]
    has no key for it: the name is not a key, and the dictionary is the
    same when the flag is replaced by any other value. *)
Theorem vsplacebo_dict_without_use_planestats self :
  ("use_planestats" ∉ dict_keys (vsplacebo_dict self)) ∧
  dict_get "use_planestats" (vsplacebo_dict self) = None ∧
  ∀ flag, vsplacebo_dict (_replace self (use_planestats_kwargs flag)) = vsplacebo_dict self.
Proof.
  split; [apply use_planestats_not_a_key|]. split.
  - apply dict_get_not_key, use_planestats_not_a_key.
  - intros flag. reflexivity.
Qed.

(** C8. For every bundle in which [tone_map_function] and
    [tone_map_function_s] are both set, whatever the two values,
    [vsplacebo_dict] has the two different keys [tone_mapping_function] and
    [tone_mapping_function_s], each with its own field's value. *)
Theorem vsplacebo_dict_both_tone_map_functions self f s :
  tone_map_function self = Some f →
  tone_map_function_s self = Some s →
  dict_get "tone_mapping_function" (vsplacebo_dict self) = Some (PyTonemapFunction f) ∧
  dict_get "tone_mapping_function_s" (vsplacebo_dict self) = Some (PyTonemapFunctionName s) ∧
  "tone_mapping_function" ≠ "tone_mapping_function_s".
Proof.
  intros Hf Hs.
  pose proof (vsplacebo_dict_optional_entries self) as (_ & _ & Hkf & Hks & _).
  rewrite Hkf, Hks, Hf, Hs. repeat split. discriminate.
Qed.

(** [sample_kwargs] sets the numeric form to [Clip] and the string form to
    ["hable"]. *)
Lemma vsplacebo_dict_both_tone_map_functions_witness :
  dict_get "tone_mapping_function" (vsplacebo_dict (new sample_kwargs))
    = Some (PyTonemapFunction PlaceboTonemapFunction.Clip) ∧
  dict_get "tone_mapping_function_s" (vsplacebo_dict (new sample_kwargs))
    = Some (PyTonemapFunctionName PlaceboTonemapFunctionName.Hable) ∧
  "tone_mapping_function" ≠ "tone_mapping_function_s".
Proof.
  apply (vsplacebo_dict_both_tone_map_functions (new sample_kwargs)
           PlaceboTonemapFunction.Clip PlaceboTonemapFunctionName.Hable);
    reflexivity.
Defined.

(** ** Colour-space predicates *)

(** C5. For every bundle, [is_dovi_src] is true exactly when
    [source_colorspace] is [DOVI], [is_hdr10_src] exactly when it is
    [HDR10], and [is_sdr_target] exactly when [target_colorspace] is
    [SDR]. *)
Theorem colorspace_predicates self :
  (is_dovi_src self = true ↔ source_colorspace self = PlaceboColorSpace.DOVI) ∧
  (is_hdr10_src self = true ↔ source_colorspace self = PlaceboColorSpace.HDR10) ∧
  (is_sdr_target self = true ↔ target_colorspace self = PlaceboColorSpace.SDR).
Proof.
  unfold is_dovi_src, is_hdr10_src, is_sdr_target.
  destruct (source_colorspace self), (target_colorspace self);
    vm_compute; repeat split; congruence.
Qed.

(** ** Round trip of the optional fields *)

(** Reading back one [Optional] field of a freshly built bundle, and its
    entry of [vsplacebo_dict]. *)
Local Ltac round_trip Hkey :=
  let v := fresh "v" in
  let Hkw := fresh "Hkw" in
  intros v Hkw; split; [simpl | rewrite Hkey; simpl]; rewrite Hkw; reflexivity.

(** C6. For each of the fourteen [Optional] fields and each value [v] that
    is not [None]: a bundle built by a call that passes the field as [v]
    reads [v] back from the field, and its [vsplacebo_dict] has [v] under
    the field's external key. *)
Theorem optional_field_round_trip kw :
  (∀ v, kw_target_primaries kw = Some (Some v) →
     target_primaries (new kw) = Some v ∧
     dict_get "dst_prim" (vsplacebo_dict (new kw)) = Some (PyInt v)) ∧
  (∀ v, kw_gamut_mapping kw = Some (Some v) →
     gamut_mapping (new kw) = Some v ∧
     dict_get "gamut_mapping" (vsplacebo_dict (new kw)) = Some (PyGamutMapping v)) ∧
  (∀ v, kw_tone_map_function kw = Some (Some v) →
     tone_map_function (new kw) = Some v ∧
     dict_get "tone_mapping_function" (vsplacebo_dict (new kw)) = Some (PyTonemapFunction v)) ∧
  (∀ v, kw_tone_map_function_s kw = Some (Some v) →
     tone_map_function_s (new kw) = Some v ∧
     dict_get "tone_mapping_function_s" (vsplacebo_dict (new kw))
       = Some (PyTonemapFunctionName v)) ∧
  (∀ v, kw_tone_map_param kw = Some (Some v) →
     tone_map_param (new kw) = Some v ∧
     dict_get "tone_mapping_param" (vsplacebo_dict (new kw)) = Some (PyNumber v)) ∧
  (∀ v, kw_contrast_recovery kw = Some (Some v) →
     contrast_recovery (new kw) = Some v ∧
     dict_get "contrast_recovery" (vsplacebo_dict (new kw)) = Some (PyNumber v)) ∧
  (∀ v, kw_hdr_metadata_type kw = Some (Some v) →
     hdr_metadata_type (new kw) = Some v ∧
     dict_get "metadata" (vsplacebo_dict (new kw)) = Some (PyHdrMetadataType v)) ∧
  (∀ v, kw_use_dovi kw = Some (Some v) →
     use_dovi (new kw) = Some v ∧
     dict_get "use_dovi" (vsplacebo_dict (new kw)) = Some (PyBool v)) ∧
  (∀ v, kw_smoothing_period kw = Some (Some v) →
     smoothing_period (new kw) = Some v ∧
     dict_get "smoothing_period" (vsplacebo_dict (new kw)) = Some (PyNumber v)) ∧
  (∀ v, kw_scene_threshold_low kw = Some (Some v) →
     scene_threshold_low (new kw) = Some v ∧
     dict_get "scene_threshold_low" (vsplacebo_dict (new kw)) = Some (PyNumber v)) ∧
  (∀ v, kw_scene_threshold_high kw = Some (Some v) →
     scene_threshold_high (new kw) = Some v ∧
     dict_get "scene_threshold_high" (vsplacebo_dict (new kw)) = Some (PyNumber v)) ∧
  (∀ v, kw_percentile kw = Some (Some v) →
     percentile (new kw) = Some v ∧
     dict_get "percentile" (vsplacebo_dict (new kw)) = Some (PyNumber v)) ∧
  (∀ v, kw_show_clipping kw = Some (Some v) →
     show_clipping (new kw) = Some v ∧
     dict_get "show_clipping" (vsplacebo_dict (new kw)) = Some (PyBool v)) ∧
  (∀ v, kw_visualize_lut kw = Some (Some v) →
     visualize_lut (new kw) = Some v ∧
     dict_get "visualize_lut" (vsplacebo_dict (new kw)) = Some (PyBool v)).
Proof.
  pose proof (vsplacebo_dict_optional_entries (new kw))
    as (Hprim & Hgamut & Hfn & Hfns & Hparam & Hdovi & Hsmooth & Hlow & Hhigh
        & Hclip & Hpct & Hmeta & Hlut & Hcontrast).
  split; [round_trip Hprim|]. split; [round_trip Hgamut|].
  split; [round_trip Hfn|]. split; [round_trip Hfns|].
  split; [round_trip Hparam|]. split; [round_trip Hcontrast|].
  split; [round_trip Hmeta|]. split; [round_trip Hdovi|].
  split; [round_trip Hsmooth|]. split; [round_trip Hlow|].
  split; [round_trip Hhigh|]. split; [round_trip Hpct|].
  split; [round_trip Hclip|]. round_trip Hlut.
Qed.

(** Six of the fourteen fields, read back from the bundle built from
    [sample_kwargs]. *)
Lemma optional_field_round_trip_witness :
  let b := new sample_kwargs in
  let d := vsplacebo_dict b in
  (target_primaries b = Some 1 ∧ dict_get "dst_prim" d = Some (PyInt 1)) ∧
  (gamut_mapping b = Some PlaceboGamutMapping.Perceptual ∧
   dict_get "gamut_mapping" d = Some (PyGamutMapping PlaceboGamutMapping.Perceptual)) ∧
  (tone_map_param b = Some (NFloat 0.5) ∧
   dict_get "tone_mapping_param" d = Some (PyFloat 0.5)) ∧
  (hdr_metadata_type b = Some PlaceboHdrMetadataType.HDR10Plus ∧
   dict_get "metadata" d = Some (PyHdrMetadataType PlaceboHdrMetadataType.HDR10Plus)) ∧
  (scene_threshold_high b = Some (NInt 3) ∧
   dict_get "scene_threshold_high" d = Some (PyInt 3)) ∧
  (visualize_lut b = Some true ∧ dict_get "visualize_lut" d = Some (PyBool true)).
Proof.
  destruct (optional_field_round_trip sample_kwargs)
    as (Hprim & Hgamut & _ & _ & Hparam & _ & Hmeta & _ & _ & _ & Hhigh & _ & _ & Hlut).
  split; [exact (Hprim _ eq_refl)|]. split; [exact (Hgamut _ eq_refl)|].
  split; [exact (Hparam _ eq_refl)|]. split; [exact (Hmeta _ eq_refl)|].
  split; [exact (Hhigh _ eq_refl)|]. exact (Hlut _ eq_refl).
Defined.

(** ** The enumerations' values *)

(** Two members with the same value are the same member. *)
Local Ltac enum_injective :=
  let a := fresh "a" in
  let b := fresh "b" in
  let H := fresh "H" in
  intros a b; destruct a, b; simpl; intros H; first [reflexivity | discriminate H].

(** The member that has a given value, found by trying each one. *)
Local Ltac enum_member :=
  solve [ (unshelve eexists; [constructor|]); reflexivity ].

(** The values of a class with [n] members are exactly [0 .. n-1]. *)
Local Ltac enum_range :=
  let z := fresh "z" in
  let p := fresh "p" in
  let Hz := fresh "Hz" in
  let a := fresh "a" in
  intros z; split;
  [ intros Hz; destruct z as [|p|p];
    [ enum_member
    | repeat (destruct p as [p|p|]; try lia); enum_member
    | lia ]
  | intros [a <-]; destruct a; simpl; lia ].

(** X1. In each of the four [IntEnum] classes the members have pairwise
    different values (no member is an alias of another), and the values are
    exactly [0 .. n-1] for the [n] members of the class. *)
Theorem int_enum_values :
  ((∀ a b, PlaceboColorSpace.value a = PlaceboColorSpace.value b → a = b) ∧
   (∀ z, 0 ≤ z < 4 ↔ ∃ a, PlaceboColorSpace.value a = z)) ∧
  ((∀ a b, PlaceboTonemapFunction.value a = PlaceboTonemapFunction.value b → a = b) ∧
   (∀ z, 0 ≤ z < 12 ↔ ∃ a, PlaceboTonemapFunction.value a = z)) ∧
  ((∀ a b, PlaceboGamutMapping.value a = PlaceboGamutMapping.value b → a = b) ∧
   (∀ z, 0 ≤ z < 10 ↔ ∃ a, PlaceboGamutMapping.value a = z)) ∧
  ((∀ a b, PlaceboHdrMetadataType.value a = PlaceboHdrMetadataType.value b → a = b) ∧
   (∀ z, 0 ≤ z < 5 ↔ ∃ a, PlaceboHdrMetadataType.value a = z)).
Proof.
  repeat match goal with |- _ ∧ _ => split end; first [enum_injective | enum_range].
Qed.

(** X2. The twelve string names of [PlaceboTonemapFunctionName] are
    pairwise different, so a name identifies its member. *)
Theorem tonemap_function_names_distinct a b :
  PlaceboTonemapFunctionName.value a = PlaceboTonemapFunctionName.value b → a = b.
Proof. revert a b. enum_injective. Qed.

Lemma tonemap_function_names_distinct_witness :
  PlaceboTonemapFunctionName.ST2094_10 = PlaceboTonemapFunctionName.ST2094_10.
Proof.
  apply (tonemap_function_names_distinct
           PlaceboTonemapFunctionName.ST2094_10 PlaceboTonemapFunctionName.ST2094_10).
  reflexivity.
Defined.

(** ** Construction and replacement *)


(** X4. A call that does not pass [dst_min] stores [0.203] there, whatever
    [dst_max] and the other keywords are, and [vsplacebo_dict] emits that
    value under [dst_min]. *)
Theorem dst_min_not_passed kw :
  kw_dst_min kw = None →
  dst_min (new kw) = NFloat 0.203 ∧
  dict_get "dst_min" (vsplacebo_dict (new kw)) = Some (PyFloat 0.203).
Proof.
  intros Hkw.
  pose proof (vsplacebo_dict_fixed_entries (new kw)) as (_ & _ & _ & Hmin & _).
  rewrite Hmin, (new_dst_min_not_passed kw Hkw). split; reflexivity.
Qed.

(** The call of [sample_kwargs] passes [dst_max=100.0] and no [dst_min]. *)
Lemma dst_min_not_passed_witness :
  dst_min (new sample_kwargs) = NFloat 0.203 ∧
  dict_get "dst_min" (vsplacebo_dict (new sample_kwargs)) = Some (PyFloat 0.203).
Proof. apply (dst_min_not_passed sample_kwargs). reflexivity. Defined.

(** ** More on the colour-space predicates *)

Lemma colorspace_eqb_eq a b : PlaceboColorSpace.eqb a b = true ↔ a = b.
Proof. destruct a, b; vm_compute; split; congruence. Qed.

(** X5. No bundle is classified both as a Dolby Vision source and as an
    HDR10 source. *)
Theorem dovi_and_hdr10_src_exclusive self :
  is_dovi_src self && is_hdr10_src self = false.
Proof.
  unfold is_dovi_src, is_hdr10_src. by destruct (source_colorspace self).
Qed.

(** X6. The three predicates agree with what [vsplacebo_dict] passes to the
    filter: [is_dovi_src] holds exactly when [src_csp] is [DOVI],
    [is_hdr10_src] exactly when [src_csp] is [HDR10], and [is_sdr_target]
    exactly when [dst_csp] is [SDR]. *)
Theorem colorspace_predicates_match_dict self :
  (is_dovi_src self = true
   ↔ dict_get "src_csp" (vsplacebo_dict self) = Some (PyColorSpace PlaceboColorSpace.DOVI)) ∧
  (is_hdr10_src self = true
   ↔ dict_get "src_csp" (vsplacebo_dict self) = Some (PyColorSpace PlaceboColorSpace.HDR10)) ∧
  (is_sdr_target self = true
   ↔ dict_get "dst_csp" (vsplacebo_dict self) = Some (PyColorSpace PlaceboColorSpace.SDR)).
Proof.
  pose proof (vsplacebo_dict_fixed_entries self) as (Hsrc & Hdst & _).
  rewrite Hsrc, Hdst. unfold is_dovi_src, is_hdr10_src, is_sdr_target.
  rewrite !colorspace_eqb_eq.
  repeat split; intros H; first [by rewrite H | by injection H].
Qed.

(** ** Keys that are never present *)

(** X7. [vsplacebo_dict] answers only to the nineteen keys of its literal:
    a lookup succeeds only for one of them. In particular the names of the
    eight fields that are filed under another key, and [use_planestats],
    are never keys. *)
Theorem vsplacebo_dict_unknown_key self :
  (∀ k, is_Some (dict_get k (vsplacebo_dict self)) → k ∈ arg_names) ∧
  Forall (λ k, dict_get k (vsplacebo_dict self) = None) field_names_not_keys.
Proof.
  assert (∀ k, k ∉ arg_names → dict_get k (vsplacebo_dict self) = None) as Hmiss.
  { intros k Hk. apply dict_get_not_key. intros Hin. apply Hk.
    exact (elem_of_sublist _ _ _ Hin (vsplacebo_dict_keys_sublist self)). }
  split.
  - intros k [v Hv]. destruct (decide (k ∈ arg_names)) as [Hin|Hnotin]; [exact Hin|].
    rewrite (Hmiss k Hnotin) in Hv. discriminate Hv.
  - unfold field_names_not_keys.
    repeat (apply Forall_cons; split;
            [apply Hmiss, (bool_decide_unpack _); vm_compute; exact I|]).
    apply Forall_nil. exact I.
Qed.

(** ** Size of the mapping *)






(** ** The static variant and the mapping *)

(** X9. Apart from the three forced keys, [vsplacebo_dict] of the static
    peak detection variant answers every lookup as [vsplacebo_dict] of the
    receiver does. *)
Theorem vsplacebo_dict_static_peak_detect_frame self k :
  k ∉ static_peak_detect_keys →
  dict_get k (vsplacebo_dict (with_static_peak_detect self))
  = dict_get k (vsplacebo_dict self).
Proof.
  intros Hk.
  destruct (decide (k ∈ arg_names)) as [Hin|Hnotin].
  - rewrite !vsplacebo_dict_get. unfold arg_names in Hin.
    repeat (apply elem_of_cons in Hin as [->|Hin];
            [first [reflexivity
                   | exfalso; apply Hk, (bool_decide_unpack _); vm_compute; exact I]|]).
    by apply elem_of_nil in Hin.
  - assert (∀ b, dict_get k (vsplacebo_dict b) = None) as Hmiss.
    { intros b. apply dict_get_not_key. intros Hin. apply Hnotin.
      exact (elem_of_sublist _ _ _ Hin (vsplacebo_dict_keys_sublist b)). }
    by rewrite !Hmiss.
Qed.

(** [sample_kwargs] sets [percentile], which is not one of the three keys. *)
Lemma vsplacebo_dict_static_peak_detect_frame_witness :
  dict_get "percentile" (vsplacebo_dict (with_static_peak_detect (new sample_kwargs)))
  = dict_get "percentile" (vsplacebo_dict (new sample_kwargs)).
Proof.
  apply (vsplacebo_dict_static_peak_detect_frame (new sample_kwargs) "percentile").
  apply (bool_decide_unpack _). vm_compute. exact I.
Defined.

(** ** What the mapping determines *)

Lemma PyNumber_inj n1 n2 : PyNumber n1 = PyNumber n2 → n1 = n2.
Proof.
  destruct n1 as [z1|f1], n2 as [z2|f2]; simpl; intros H; try discriminate H.
  - by injection H as ->.
  - apply (f_equal (λ v, match v with PyFloat f => f | _ => f1 end)) in H.
    simpl in H. by rewrite H.
Qed.

Lemma fmap_Some_inj {A B} (f : A → B) (o1 o2 : option A) :
  (∀ a b, f a = f b → a = b) → f <$> o1 = f <$> o2 → o1 = o2.
Proof.
  intros Hf. destruct o1, o2; simpl; intros H; try discriminate H; [|reflexivity].
  injection H as H. by rewrite (Hf _ _ H).
Qed.

(** X10. [vsplacebo_dict] loses nothing but [use_planestats]: two bundles
    with the same mapping and the same [use_planestats] are equal. *)
Theorem vsplacebo_dict_determines_bundle b1 b2 :
  vsplacebo_dict b1 = vsplacebo_dict b2 →
  use_planestats b1 = use_planestats b2 →
  b1 = b2.
Proof.
  intros Hd Hup.
  pose proof (vsplacebo_dict_fixed_entries b1) as (F1 & F2 & F3 & F4 & F5).
  pose proof (vsplacebo_dict_optional_entries b1)
    as (O1 & O2 & O3 & O4 & O5 & O6 & O7 & O8 & O9 & O10 & O11 & O12 & O13 & O14).
  rewrite Hd in *.
  pose proof (vsplacebo_dict_fixed_entries b2) as (G1 & G2 & G3 & G4 & G5).
  pose proof (vsplacebo_dict_optional_entries b2)
    as (P1 & P2 & P3 & P4 & P5 & P6 & P7 & P8 & P9 & P10 & P11 & P12 & P13 & P14).
  rewrite F1 in G1. rewrite F2 in G2. rewrite F3 in G3. rewrite F4 in G4.
  rewrite F5 in G5. rewrite O1 in P1. rewrite O2 in P2. rewrite O3 in P3.
  rewrite O4 in P4. rewrite O5 in P5. rewrite O6 in P6. rewrite O7 in P7.
  rewrite O8 in P8. rewrite O9 in P9. rewrite O10 in P10. rewrite O11 in P11.
  rewrite O12 in P12. rewrite O13 in P13. rewrite O14 in P14.
  clear F1 F2 F3 F4 F5 O1 O2 O3 O4 O5 O6 O7 O8 O9 O10 O11 O12 O13 O14 Hd.
  injection G1 as G1. injection G2 as G2. injection G5 as G5.
  apply (f_equal (from_option id PyNone)), PyNumber_inj in G3.
  apply (f_equal (from_option id PyNone)), PyNumber_inj in G4.
  apply fmap_Some_inj in P1; [|by intros ?? [=]].
  apply fmap_Some_inj in P2; [|by intros ?? [=]].
  apply fmap_Some_inj in P3; [|by intros ?? [=]].
  apply fmap_Some_inj in P4; [|by intros ?? [=]].
  apply fmap_Some_inj in P5; [|exact PyNumber_inj].
  apply fmap_Some_inj in P6; [|by intros ?? [=]].
  apply fmap_Some_inj in P7; [|exact PyNumber_inj].
  apply fmap_Some_inj in P8; [|exact PyNumber_inj].
  apply fmap_Some_inj in P9; [|exact PyNumber_inj].
  apply fmap_Some_inj in P10; [|by intros ?? [=]].
  apply fmap_Some_inj in P11; [|exact PyNumber_inj].
  apply fmap_Some_inj in P12; [|by intros ?? [=]].
  apply fmap_Some_inj in P13; [|by intros ?? [=]].
  apply fmap_Some_inj in P14; [|exact PyNumber_inj].
  destruct b1, b2; simpl in *. by subst.
Qed.

(** Two calls with the same keywords build bundles with the same mapping. *)
Lemma vsplacebo_dict_determines_bundle_witness :
  new sample_kwargs = _replace (new no_kwargs) sample_kwargs.
Proof.
  apply (vsplacebo_dict_determines_bundle
           (new sample_kwargs) (_replace (new no_kwargs) sample_kwargs));
    reflexivity.
Defined.
